(** * ezdeploy: a shallow embedding of [main.go]

    The program is one Go file: an HTTP handler that clones a GitHub
    repository, detects its build tool from marker files and runs the build
    in a Docker container.  The pure string functions are embedded as Rocq
    functions on [string]; everything that touches the operating system, the
    clock, git or the Docker daemon is embedded in a small state monad whose
    state records the files written, the calls made (in order), the lines
    printed and the HTTP response, and whose outcomes are read from an
    environment record [Env]. *)

From Stdlib Require Import ZArith String Ascii DecimalString DecimalZ.
From stdpp Require Import gmap strings list.

Open Scope string_scope.
Open Scope list_scope.
Open Scope Z_scope.

(** ** The Go library functions the program calls *)

Module Go.

(** A Go [error] value is modelled by its message; [nil] is [None]. *)
Definition error := string.

(** [s[n:]] *)
Fixpoint slice_from (n : nat) (s : string) : string :=
  match n, s with
  | O, _ => s
  | S _, EmptyString => EmptyString
  | S k, String _ rest => slice_from k rest
  end.

(** [strings.HasPrefix(s, prefix)] *)
Definition strings_HasPrefix (s prefix : string) : bool :=
  String.prefix prefix s.

(** [strings.TrimPrefix(s, prefix)]: [s] without the leading [prefix],
    [s] itself when it does not start with it. *)
Definition strings_TrimPrefix (s prefix : string) : string :=
  if strings_HasPrefix s prefix
  then slice_from (String.length prefix) s
  else s.

(** The scan behind [strings.Split] for a non-empty separator: [cur] is
    the segment read so far, [skip] the number of bytes of a separator
    just matched that are still to be passed over. *)
Fixpoint split_scan (sep : string) (skip : nat) (cur s : string)
  : list string :=
  match s with
  | EmptyString => [cur]
  | String c rest =>
      match skip with
      | S k => split_scan sep k cur rest
      | O =>
          if String.prefix sep s
          then cur :: split_scan sep (String.length sep - 1) "" rest
          else split_scan sep 0 (cur +:+ String c "") rest
      end
  end.

(** [strings.Split(s, "")] cuts [s] after every character (here: byte). *)
Fixpoint explode (s : string) : list string :=
  match s with
  | EmptyString => []
  | String c rest => String c "" :: explode rest
  end.

(** [strings.Split(s, sep)] *)
Definition strings_Split (s sep : string) : list string :=
  match sep with
  | EmptyString => explode s
  | _ => split_scan sep 0 "" s
  end.

(** [strings.Contains(s, substr)] *)
Fixpoint strings_Contains (s substr : string) : bool :=
  String.prefix substr s ||
  match s with
  | EmptyString => false
  | String _ rest => strings_Contains rest substr
  end.

(** [a[i]] on a slice: [None] stands for the run-time panic
    "index out of range". *)
Definition index {A : Type} (a : list A) (i : Z) : option A :=
  if i <? 0 then None else a !! Z.to_nat i.

(** [len(a)] *)
Definition len {A : Type} (a : list A) : Z := Z.of_nat (length a).

(** The verb [%d] (and [%v]) on an integer: its decimal numeral. *)
Definition fmt_d (n : Z) : string := NilZero.string_of_int (Z.to_int n).

(** The verb [%v] on an [error]: its message, ["<nil>"] for [nil]. *)
Definition fmt_v (e : option error) : string :=
  match e with
  | Some msg => msg
  | None => "<nil>"
  end.

(** A verb with no operand left, as in [fmt.Sprintf("... %v")]. *)
Definition fmt_missing : string := "%!v(MISSING)".

Definition nl : string := String "010"%char "".
Definition tab : string := String "009"%char "".

(** [net/http] status codes used by the handler. *)
Definition StatusOK : Z := 200.
Definition StatusBadRequest : Z := 400.

End Go.

Import Go.

(** ** The pure functions of [main.go] *)

(** [getRepoNameFromURL], lines 37-46.  The result is [None] exactly when
    the indexing [parts[len(parts)-1]] panics. *)
Definition getRepoNameFromURL (repoURL : string) : option string :=
  let repoURL := strings_TrimPrefix repoURL "https://github.com/" in
  let parts := strings_Split repoURL "/" in
  index parts (len parts - 1).

(** [buildToolArgs], lines 201-206. *)
Definition buildToolArgs (buildTool : string) : string :=
  if String.eqb buildTool "maven" then "clean package" else "build".

(** The shell command line of the container, line 145:
    [fmt.Sprintf("%s %s", buildTool, buildToolArgs(buildTool))]. *)
Definition buildCommand (buildTool : string) : string :=
  buildTool +:+ " " +:+ buildToolArgs buildTool.

(** [container.Config.Cmd], line 145. *)
Definition containerCmd (buildTool : string) : list string :=
  ["/bin/sh"; "-c"; buildCommand buildTool].

(** The text [generateDockerfile] builds in [dockerfileContent],
    lines 209-222.  The two raw string literals start with a line break and
    keep the tab that indents the source. *)
Definition dockerfileContent (buildTool : string) : string :=
  let content :=
    nl +:+ tab +:+ "FROM openjdk:17-jdk-slim" +:+
    nl +:+ tab +:+ "RUN apt-get update && apt-get install -y curl git" in
  let content :=
    if String.eqb buildTool "maven"
    then content +:+ nl +:+ "RUN apt-get install -y maven"
    else if String.eqb buildTool "gradle"
    then content +:+ nl +:+ "RUN apt-get install -y gradle"
    else content in
  content +:+
    nl +:+ tab +:+ "WORKDIR /app" +:+
    nl +:+ tab +:+ "COPY . .".

(** The build-tool kinds of the specification and the identifiers the
    program uses for them. *)
Inductive BuildToolKind := Maven | Gradle | Unknown.

Definition kindName (k : BuildToolKind) : string :=
  match k with
  | Maven => "maven"
  | Gradle => "gradle"
  | Unknown => "unknown"
  end.

(** ** The world outside the program *)

(** [RepoRequest], lines 23-25. *)
Record RepoRequest := { RepoURL : string }.

(** The part of [*http.Request] the handler reads. *)
Record Request := { Body : string }.

Inductive result (A : Type) :=
| Ok (a : A)
| Err (e : error).
Arguments Ok {A} a.
Arguments Err {A} e.

(** What the [select] of lines 171-180 receives: a value on the error
    channel (possibly [nil]) or a status on the status channel.  Which of
    the two channels is served is decided outside the program. *)
Inductive WaitSignal :=
| OnErrCh (err : option error)
| OnStatusCh (StatusCode : Z).

(** The values [defer] closes in [executeBuild]. *)
Inductive Handle :=
| BuildContext (path : string)
| BuildRespBody
| CopyResp.

(** The calls that leave the process, with their arguments. *)
Inductive Event :=
| EvMkdirAll (path : string)
| EvExecRun (argv : list string)
| EvStat (path : string)
| EvNewClient
| EvWriteFile (name data : string)
| EvOpen (path : string)
| EvImageBuild (context dockerfile : string) (tags : list string)
| EvContainerCreate (image : string) (cmd : list string)
| EvContainerStart (id : string)
| EvContainerWait (id : string)
| EvCopyFromContainer (id path : string)
| EvClose (h : Handle).

(** The outcome of every call the program makes outside itself.  The
    library functions [json.Decode], [filepath.Join] and [os.IsNotExist]
    are taken from here as well. *)
Record Env := {
  json_Decode : string -> result RepoRequest;
  time_Now_Unix : Z;
  os_MkdirAll : string -> option error;
  exec_Run : list string -> option error;
  filepath_Join : string -> string -> string;
  os_Stat : string -> option error;
  os_IsNotExist : error -> bool;
  os_WriteFile : string -> string -> option error;
  os_Open : string -> option error;
  client_NewClientWithOpts : option error;
  cli_ImageBuild : string -> string -> list string -> option error;
  cli_ContainerCreate : string -> list string -> result string;
  cli_ContainerStart : string -> option error;
  cli_ContainerWait : string -> WaitSignal;
  cli_CopyFromContainer : string -> string -> option error
}.

(** The [http.ResponseWriter]: [status] is [None] until a header is
    written. *)
Record Response := { status : option Z; body : string }.

(** What the client receives as status: 200 when the handler returned
    without writing a header. *)
Definition clientStatus (w : Response) : Z :=
  match status w with
  | Some code => code
  | None => StatusOK
  end.

Record State := {
  files : gmap string string;
  calls : list Event;
  stdout : list string;
  resp : Response
}.

(** The state a request starts in: the files already on disk, nothing
    called, printed or written yet. *)
Definition initial (fs : gmap string string) : State :=
  {| files := fs; calls := []; stdout := [];
     resp := {| status := None; body := "" |} |}.

(** *** The state monad *)

Definition M (A : Type) : Type := State -> A * State.

Definition ret {A : Type} (a : A) : M A := fun st => (a, st).

Definition bind {A B : Type} (m : M A) (k : A -> M B) : M B :=
  fun st => let (a, st') := m st in k a st'.

Notation "'let*' x ':=' m 'in' k" := (bind m (fun x => k))
  (at level 10, x name, m at level 100, k at level 200).
Notation "m ';;' k" := (bind m (fun _ => k))
  (at level 100, k at level 200, right associativity).

Definition call (e : Event) : M unit := fun st =>
  (tt, {| files := files st; calls := calls st ++ [e];
          stdout := stdout st; resp := resp st |}).

(** [fmt.Print] of an already formatted line. *)
Definition print (line : string) : M unit := fun st =>
  (tt, {| files := files st; calls := calls st;
          stdout := stdout st ++ [line]; resp := resp st |}).

Definition store (name data : string) : M unit := fun st =>
  (tt, {| files := <[name := data]> (files st); calls := calls st;
          stdout := stdout st; resp := resp st |}).

(** [http.Error(w, msg, code)]: the header is written unless one was
    written before, and the message goes to the body with a line break. *)
Definition http_Error (msg : string) (code : Z) : M unit := fun st =>
  let w := resp st in
  let w' := {| status := match status w with
                         | Some c => Some c
                         | None => Some code
                         end;
               body := body w +:+ msg +:+ nl |} in
  (tt, {| files := files st; calls := calls st;
          stdout := stdout st; resp := w' |}).

(** [defer d] followed by the rest [m] of the function body: [d] runs
    when [m] has produced the function's result. *)
Definition defer {A : Type} (d : M unit) (m : M A) : M A :=
  let* r := m in d ;; ret r.

(** How a handler ends: it returns, or it panics and [net/http] recovers. *)
Inductive Completion := Returned | Panicked.

(** ** The functions of [main.go] that act on the world *)

Section Program.

Context (E : Env).

(** [fetchCodeFromGitHub], lines 27-35. *)
Definition fetchCodeFromGitHub (repoURL projectDir : string)
  : M (option error) :=
  let cmd := ["git"; "clone"; repoURL; projectDir] in
  call (EvExecRun cmd) ;;
  match exec_Run E cmd with
  | Some err => ret (Some ("failed to clone repo: " +:+ err))
  | None => ret None
  end.

(** [createProjectDir], lines 47-60. *)
Definition createProjectDir (repoName : string) : M string :=
  let timestamp := time_Now_Unix E in
  let projectDir := repoName +:+ "-" +:+ fmt_d timestamp in
  call (EvMkdirAll projectDir) ;;
  match os_MkdirAll E projectDir with
  | Some err =>
      print ("Error creating project directory: " +:+ err +:+ nl) ;;
      ret ""
  | None => ret projectDir
  end.

(** [detectBuildTool], lines 232-255. *)
Definition detectBuildTool (projectPath : string) : M string :=
  let pomPath := filepath_Join E projectPath "pom.xml" in
  call (EvStat pomPath) ;;
  match os_Stat E pomPath with
  | None => ret "maven"
  | Some err =>
      (if os_IsNotExist E err
       then print ("pom.xml does not exist at " +:+ pomPath +:+ nl)
       else print ("Error checking pom.xml: " +:+ err +:+ nl)) ;;
      let gradlePath := filepath_Join E projectPath "build.gradle" in
      call (EvStat gradlePath) ;;
      match os_Stat E gradlePath with
      | None => ret "gradle"
      | Some err =>
          (if os_IsNotExist E err
           then print ("build.gradle does not exist at "
                       +:+ gradlePath +:+ nl)
           else print ("Error checking build.gradle: " +:+ err +:+ nl)) ;;
          ret "unknown"
      end
  end.

(** [generateDockerfile], lines 208-231.  A write that fails leaves the
    file as it was. *)
Definition generateDockerfile (buildTool : string) : M (option error) :=
  let content := dockerfileContent buildTool in
  call (EvWriteFile "Dockerfile" content) ;;
  match os_WriteFile E "Dockerfile" content with
  | Some err => ret (Some ("failed to write Dockerfile: " +:+ err))
  | None => store "Dockerfile" content ;; ret None
  end.

(** The error of line 178,
    [fmt.Errorf("container exited with non-zero status: %v", code)]. *)
Definition nonZeroExit (StatusCode : Z) : error :=
  "container exited with non-zero status: " +:+ fmt_d StatusCode.

(** The [select] of lines 171-180: the error to return at once, if any. *)
Definition waitVerdict (signal : WaitSignal) : option error :=
  match signal with
  | OnErrCh (Some err) =>
      Some ("error while waiting for container: " +:+ err)
  | OnErrCh None => None
  | OnStatusCh StatusCode =>
      if negb (StatusCode =? 0)
      then Some (nonZeroExit StatusCode)
      else None
  end.

(** [executeBuild], lines 115-199. *)
Definition executeBuild (projectPath buildTool : string)
  : M (option error) :=
  call EvNewClient ;;
  match client_NewClientWithOpts E with
  | Some err =>
      ret (Some ("failed to initialize Docker client: " +:+ err))
  | None =>
  let* err := generateDockerfile buildTool in
  match err with
  | Some err => ret (Some err)
  | None =>
  call (EvOpen projectPath) ;;
  match os_Open E projectPath with
  | Some err => ret (Some ("failed to open project directory: " +:+ err))
  | None =>
  defer (call (EvClose (BuildContext projectPath))) (
  call (EvImageBuild projectPath "Dockerfile" ["java-build-env"]) ;;
  match cli_ImageBuild E projectPath "Dockerfile" ["java-build-env"] with
  | Some err => ret (Some ("failed to build Docker image: " +:+ err))
  | None =>
  defer (call (EvClose BuildRespBody)) (
  let Image := "java-build-env" in
  let Cmd := containerCmd buildTool in
  call (EvContainerCreate Image Cmd) ;;
  match cli_ContainerCreate E Image Cmd with
  | Err err => ret (Some ("failed to create container: " +:+ err))
  | Ok ID =>
  call (EvContainerStart ID) ;;
  match cli_ContainerStart E ID with
  | Some err => ret (Some ("failed to start container: " +:+ err))
  | None =>
  call (EvContainerWait ID) ;;
  match waitVerdict (cli_ContainerWait E ID) with
  | Some err => ret (Some err)
  | None =>
  call (EvCopyFromContainer ID "/app/target") ;;
  match cli_CopyFromContainer E ID "/app/target" with
  | Some err => ret (Some ("failed to copy build artifacts: " +:+ err))
  | None =>
  defer (call (EvClose CopyResp)) (
  call (EvMkdirAll "build-output") ;;
  match os_MkdirAll E "build-output" with
  | Some err =>
      ret (Some ("failed to create build output directory: " +:+ err))
  | None => ret None
  end)
  end end end end) end) end end end.

(** [deployHandler], lines 62-113. *)
Definition deployHandler (r : Request) : M Completion :=
  match json_Decode E (Body r) with
  | Err jsonErr =>
      http_Error ("Error parsing request body: " +:+ jsonErr)
                 StatusBadRequest ;;
      ret Returned
  | Ok req =>
  print (RepoURL req +:+ nl) ;;
  match getRepoNameFromURL (RepoURL req) with
  | None => ret Panicked
  | Some repoName =>
  if String.eqb repoName ""
  then print ("Failed to extract repository name from URL." +:+ nl) ;;
       ret Returned
  else
  print ("Extracted repository name: " +:+ repoName +:+ nl) ;;
  let* projectDir := createProjectDir repoName in
  if String.eqb projectDir ""
  then print ("Failed to create project directory." +:+ nl) ;;
       ret Returned
  else
  print ("Project directory created: " +:+ projectDir +:+ nl) ;;
  let* err := fetchCodeFromGitHub (RepoURL req) projectDir in
  match err with
  | Some e =>
      print ("Error fetching code: " +:+ e +:+ nl) ;;
      ret Returned
  | None =>
  let* buildTool := detectBuildTool projectDir in
  if String.eqb buildTool "unknown"
  then print ("Unsupported build tool!" +:+ nl) ;;
       http_Error ("Unsupported build tool! " +:+ fmt_missing)
                  StatusBadRequest ;;
       ret Returned
  else
  let* fetchErr := executeBuild projectDir buildTool in
  match fetchErr with
  | Some _ =>
      print ("Build failed: " +:+ fmt_v err +:+ nl) ;;
      ret Returned
  | None =>
      print ("Build completed successfully!" +:+ nl) ;;
      ret Returned
  end
  end
  end
  end.

End Program.

(** ** Reading a run *)

(** The directory [createProjectDir] names for [repoName]: the repository
    name, a dash and the Unix time. *)
Definition projectDirFor (E : Env) (repoName : string) : string :=
  repoName +:+ "-" +:+ fmt_d (time_Now_Unix E).

(** The [git clone] command line of [fetchCodeFromGitHub]. *)
Definition cloneCmd (repoURL projectDir : string) : list string :=
  ["git"; "clone"; repoURL; projectDir].

Definition isCopyFrom (e : Event) : bool :=
  match e with
  | EvCopyFromContainer _ _ => true
  | _ => false
  end.

Definition isMkdirOf (path : string) (e : Event) : bool :=
  match e with
  | EvMkdirAll p => String.eqb p path
  | _ => false
  end.

(** Calls that only [executeBuild] makes: the manifest, the Docker client
    and everything done through it. *)
Definition isBuildStep (e : Event) : bool :=
  match e with
  | EvMkdirAll _ | EvExecRun _ | EvStat _ => false
  | _ => true
  end.

(** [comesBefore p q l]: some call satisfying [p] is made earlier in [l]
    than some call satisfying [q]. *)
Fixpoint comesBefore (p q : Event -> bool) (l : list Event) : bool :=
  match l with
  | [] => false
  | e :: rest => (p e && existsb q rest) || comesBefore p q rest
  end.

(** How many calls of [l] satisfy [p]. *)
Fixpoint countb (p : Event -> bool) (l : list Event) : nat :=
  match l with
  | [] => O
  | e :: rest => ((if p e then 1 else 0) + countb p rest)%nat
  end.

(** [err == nil] *)
Definition isNil (err : option error) : bool :=
  match err with
  | None => true
  | Some _ => false
  end.

Definition isOpen (e : Event) : bool :=
  match e with EvOpen _ => true | _ => false end.

Definition isImageBuild (e : Event) : bool :=
  match e with EvImageBuild _ _ _ => true | _ => false end.

Definition isContainerCreate (e : Event) : bool :=
  match e with EvContainerCreate _ _ => true | _ => false end.

Definition isCloseOf (h : Handle) (e : Event) : bool :=
  match e, h with
  | EvClose (BuildContext p), BuildContext q => String.eqb p q
  | EvClose BuildRespBody, BuildRespBody => true
  | EvClose CopyResp, CopyResp => true
  | _, _ => false
  end.

(** What [executeBuild] may call for [buildTool]: no clone and no probe,
    the manifest of that tool and a container with the command line of
    that tool. *)
Definition buildEventOf (buildTool : string) (e : Event) : Prop :=
  match e with
  | EvExecRun _ | EvStat _ => False
  | EvWriteFile name data =>
      name = "Dockerfile" /\ data = dockerfileContent buildTool
  | EvContainerCreate image cmd =>
      image = "java-build-env" /\ cmd = containerCmd buildTool
  | _ => True
  end.

(** A call that is right for one of the two recognised tools. *)
Definition forKnownTool (e : Event) : Prop :=
  match e with
  | EvWriteFile name data =>
      name = "Dockerfile" /\
      (data = dockerfileContent "maven" \/ data = dockerfileContent "gradle")
  | EvContainerCreate image cmd =>
      image = "java-build-env" /\
      (cmd = containerCmd "maven" \/ cmd = containerCmd "gradle")
  | _ => True
  end.

(** ** Concrete worlds *)

Module Worlds.

Definition quote : string := String "034"%char "".

(** The body [{"repoURL":"<url>"}]. *)
Definition bodyFor (url : string) : string :=
  "{" +:+ quote +:+ "repoURL" +:+ quote +:+ ":"
      +:+ quote +:+ url +:+ quote +:+ "}".

(** Which of the two marker files a cloned project holds, and what else
    may go wrong in a world. *)
Record Knobs := {
  url : string;
  hasPom : bool;
  hasGradle : bool;
  cloneFails : bool;
  exitCode : Z
}.

(** The directory [createProjectDir] makes for [url] at 1700000000. *)
Definition getDir (url : string) : string :=
  match getRepoNameFromURL url with
  | Some name => name +:+ "-" +:+ fmt_d 1700000000
  | None => ""
  end.

(** A world where the request carries [url k], the clock reads
    1700000000, every call succeeds unless [k] says otherwise, and the
    container exits with [exitCode k]. *)
Definition world (k : Knobs) : Env := {|
  json_Decode := fun b =>
    if String.eqb b (bodyFor (url k))
    then Ok {| RepoURL := url k |}
    else Err "unexpected end of JSON input";
  time_Now_Unix := 1700000000;
  os_MkdirAll := fun _ => None;
  exec_Run := fun _ =>
    if cloneFails k then Some "exit status 128" else None;
  filepath_Join := fun dir name => dir +:+ "/" +:+ name;
  os_Stat := fun path =>
    if String.eqb path
         (getDir (url k) +:+ "/pom.xml") && hasPom k then None
    else if String.eqb path
         (getDir (url k) +:+ "/build.gradle") && hasGradle k then None
    else Some ("stat " +:+ path +:+ ": no such file or directory");
  os_IsNotExist := fun _ => true;
  os_WriteFile := fun _ _ => None;
  os_Open := fun _ => None;
  client_NewClientWithOpts := None;
  cli_ImageBuild := fun _ _ _ => None;
  cli_ContainerCreate := fun _ _ => Ok "c0ffee";
  cli_ContainerStart := fun _ => None;
  cli_ContainerWait := fun _ => OnStatusCh (exitCode k);
  cli_CopyFromContainer := fun _ _ => None
|}.

(** A Maven project (only [pom.xml]) whose build succeeds. *)
Definition mavenProject : Knobs := {|
  url := "https://github.com/acme/app";
  hasPom := true; hasGradle := false; cloneFails := false; exitCode := 0
|}.

(** A project with both marker files. *)
Definition bothMarkers : Knobs := {|
  url := "https://github.com/acme/app";
  hasPom := true; hasGradle := true; cloneFails := false; exitCode := 0
|}.

(** A Gradle project whose build exits with status 3. *)
Definition gradleExit3 : Knobs := {|
  url := "https://github.com/acme/app";
  hasPom := false; hasGradle := true; cloneFails := false; exitCode := 3
|}.

(** A project with neither marker file. *)
Definition noMarker : Knobs := {|
  url := "https://github.com/acme/app";
  hasPom := false; hasGradle := false; cloneFails := false; exitCode := 0
|}.

(** A repository that cannot be cloned. *)
Definition brokenClone : Knobs := {|
  url := "https://github.com/acme/missing";
  hasPom := false; hasGradle := false; cloneFails := true; exitCode := 0
|}.

(** A request whose URL ends in a slash. *)
Definition trailingSlash : Knobs := {|
  url := "https://github.com/acme/app/";
  hasPom := true; hasGradle := false; cloneFails := false; exitCode := 0
|}.

Definition requestOf (k : Knobs) : Request := {| Body := bodyFor (url k) |}.

(** One request served in [world k], starting with an empty disk. *)
Abbreviation deploy k :=
  (deployHandler (world k) (requestOf k) (initial ∅)).

(** One build of the project directory with [tool] in [world k]. *)
Abbreviation build k tool :=
  (executeBuild (world k) (getDir (url k)) tool (initial ∅)).

End Worlds.

(** *** Worlds with one more fault *)

Module Faults.

(** What goes wrong beyond [Worlds.Knobs]: every [MkdirAll] fails, every
    [Stat] fails with an error that is not "does not exist", the image
    build fails, or the wait delivers on the error channel. *)
Record Faults := {
  mkdirError : option error;
  statDenied : bool;
  imageError : option error;
  waitError : option error
}.

Definition none : Faults := {|
  mkdirError := None; statDenied := false;
  imageError := None; waitError := None
|}.

Definition world (k : Worlds.Knobs) (f : Faults) : Env :=
  let E := Worlds.world k in {|
  json_Decode := json_Decode E;
  time_Now_Unix := time_Now_Unix E;
  os_MkdirAll := fun path =>
    match mkdirError f with
    | Some err => Some err
    | None => os_MkdirAll E path
    end;
  exec_Run := exec_Run E;
  filepath_Join := filepath_Join E;
  os_Stat := fun path =>
    if statDenied f
    then Some ("stat " +:+ path +:+ ": permission denied")
    else os_Stat E path;
  os_IsNotExist := fun _ => negb (statDenied f);
  os_WriteFile := os_WriteFile E;
  os_Open := os_Open E;
  client_NewClientWithOpts := client_NewClientWithOpts E;
  cli_ImageBuild := fun context dockerfile tags =>
    match imageError f with
    | Some err => Some err
    | None => cli_ImageBuild E context dockerfile tags
    end;
  cli_ContainerCreate := cli_ContainerCreate E;
  cli_ContainerStart := cli_ContainerStart E;
  cli_ContainerWait := fun ID =>
    match waitError f with
    | Some err => OnErrCh (Some err)
    | None => cli_ContainerWait E ID
    end;
  cli_CopyFromContainer := cli_CopyFromContainer E
|}.

(** The disk is full: no directory can be made. *)
Definition diskFull : Faults := {|
  mkdirError := Some "mkdir: no space left on device";
  statDenied := false; imageError := None; waitError := None
|}.

(** The cloned directory cannot be read. *)
Definition unreadable : Faults := {|
  mkdirError := None; statDenied := true;
  imageError := None; waitError := None
|}.

(** The daemon goes away while the container runs. *)
Definition daemonGone : Faults := {|
  mkdirError := None; statDenied := false; imageError := None;
  waitError := Some "connection refused"
|}.

End Faults.

(** ** Proof steps shared by the runs *)

(** Open the monad so that a run becomes a term on states. *)
Ltac unfold_monad :=
  unfold defer, bind, ret, call, print, store, http_Error.

(** Case analysis on the answers of the world, in the order in which
    [executeBuild] asks for them. *)
Ltac case_oracle :=
  match goal with
  | |- context [client_NewClientWithOpts ?E] =>
      destruct (client_NewClientWithOpts E) eqn:?
  | |- context [os_WriteFile ?E ?name ?data] =>
      destruct (os_WriteFile E name data) eqn:?
  | |- context [os_Open ?E ?path] =>
      destruct (os_Open E path) eqn:?
  | |- context [cli_ImageBuild ?E ?ctx ?file ?tags] =>
      destruct (cli_ImageBuild E ctx file tags) eqn:?
  | |- context [cli_ContainerCreate ?E ?image ?cmd] =>
      destruct (cli_ContainerCreate E image cmd) eqn:?
  | |- context [cli_ContainerStart ?E ?id] =>
      destruct (cli_ContainerStart E id) eqn:?
  | |- context [cli_ContainerWait ?E ?id] =>
      destruct (cli_ContainerWait E id) as [[?|]|?] eqn:?
  | |- context [negb (?code =? 0)] =>
      destruct (Z.eqb_spec code 0)
  | |- context [cli_CopyFromContainer ?E ?id ?path] =>
      destruct (cli_CopyFromContainer E id path) eqn:?
  | |- context [os_MkdirAll ?E ?path] =>
      destruct (os_MkdirAll E path) eqn:?
  end.

Ltac case_oracles := cbn; repeat (case_oracle; cbn).

(** ** Facts about the library models *)

Section LibraryFacts.

Lemma split_scan_nonempty (sep : string) (s : string) :
  forall (skip : nat) (cur : string), split_scan sep skip cur s <> [].
Proof.
  induction s as [|c rest IH]; intros skip cur; cbn [split_scan].
  - discriminate.
  - destruct skip as [|k]; [|apply IH].
    destruct (String.prefix sep (String c rest)); [discriminate|apply IH].
Qed.

Lemma strings_Split_nonempty (s sep : string) :
  sep <> "" -> strings_Split s sep <> [].
Proof.
  destruct sep as [|c sep']; [congruence|].
  intros _. apply split_scan_nonempty.
Qed.

(** After a separator of one byte nothing is left to skip, and a text
    that ends with the separator ends with an empty segment. *)
Lemma split_scan_trailing (c : ascii) (t : string) :
  forall cur : string,
    exists segments : list string,
      split_scan (String c "") 0 cur (t +:+ String c "")
      = segments ++ [""].
Proof.
  induction t as [|d rest IH]; intros cur.
  - exists [cur].
    change ("" +:+ String c "") with (String c "").
    cbn [split_scan String.prefix String.length Nat.sub].
    destruct (ascii_dec c c) as [_|Hne]; [reflexivity|congruence].
  - change (String d rest +:+ String c "")
      with (String d (rest +:+ String c "")).
    cbn [split_scan String.prefix String.length Nat.sub].
    destruct (ascii_dec c d) as [_|_].
    + destruct (IH "") as [segs Hsegs]. exists (cur :: segs).
      assert (Hp : String.prefix "" (rest +:+ String c "") = true)
        by (destruct (rest +:+ String c ""); reflexivity).
      rewrite Hp, Hsegs. reflexivity.
    + apply IH.
Qed.

Lemma index_last {A : Type} (l : list A) (x : A) :
  index (l ++ [x]) (len (l ++ [x]) - 1) = Some x.
Proof.
  unfold index, len. rewrite length_app. simpl.
  replace (Z.of_nat (length l + 1) - 1) with (Z.of_nat (length l)) by lia.
  destruct (Z.ltb_spec (Z.of_nat (length l)) 0) as [Hneg|_]; [lia|].
  rewrite Nat2Z.id. by apply list_lookup_middle.
Qed.

Lemma index_last_is_Some {A : Type} (l : list A) :
  l <> [] -> is_Some (index l (len l - 1)).
Proof.
  intros Hl. destruct (exists_last Hl) as (front & x & ->).
  rewrite index_last. by eexists.
Qed.

(** Cutting bytes off the front of a text that ends in [c] leaves
    nothing or a text that still ends in [c]. *)
Lemma slice_from_trailing (c : ascii) (n : nat) :
  forall t : string,
    slice_from n (t +:+ String c "") = ""
    \/ exists u, slice_from n (t +:+ String c "") = u +:+ String c "".
Proof.
  induction n as [|k IH]; intros t.
  - right. by exists t.
  - destruct t as [|d rest]; simpl.
    + destruct k; by left.
    + apply IH.
Qed.

Lemma fmt_d_inj (a b : Z) : fmt_d a = fmt_d b -> a = b.
Proof.
  unfold fmt_d. intros Heq.
  assert (Hnn : forall z : Z,
             NilZero.int_of_string (NilZero.string_of_int (Z.to_int z))
             = Some (Z.to_int z)).
  { intros z. apply NilZero.isi; destruct z; simpl; intros Hz;
      inversion Hz as [Hnil];
      by apply DecimalPos.Unsigned.to_uint_nonnil in Hnil. }
  apply DecimalZ.to_int_inj.
  pose proof (Hnn a) as Ha. rewrite Heq, Hnn in Ha. congruence.
Qed.

End LibraryFacts.

(** ** The pure functions *)

(** C9. [buildToolArgs] answers every string: ["clean package"] for
    ["maven"], and ["build"] for every other string, ["gradle"] and
    unrecognised values alike. *)
Theorem buildToolArgs_default (buildTool : string) :
  (buildTool = "maven" -> buildToolArgs buildTool = "clean package") /\
  (buildTool <> "maven" -> buildToolArgs buildTool = "build").
Proof.
  unfold buildToolArgs.
  destruct (String.eqb_spec buildTool "maven") as [Heq|Hne]; split;
    intros H; congruence.
Qed.

Lemma buildToolArgs_default_witness :
  buildToolArgs "maven" = "clean package" /\
  buildToolArgs "gradle" = "build" /\
  buildToolArgs "ant" = "build".
Proof.
  split; [|split].
  - apply (proj1 (buildToolArgs_default "maven")). reflexivity.
  - apply (proj2 (buildToolArgs_default "gradle")). discriminate.
  - apply (proj2 (buildToolArgs_default "ant")). discriminate.
Defined.

(** The command line is the tool identifier itself followed by its
    arguments, whatever the identifier. *)
Lemma buildCommand_starts_with_tool (buildTool : string) :
  buildCommand buildTool = buildTool +:+ " " +:+ buildToolArgs buildTool.
Proof. reflexivity. Qed.

(** C1. For Gradle the container runs ["gradle build"].  For Maven it runs
    ["maven clean package"], not ["mvn clean package"]: the identifier
    ["maven"] is used as the name of the executable, and that is the
    command the container of a project with [pom.xml] is created with. *)
Theorem buildCommand_maven_not_mvn :
  buildCommand (kindName Gradle) = "gradle build" /\
  buildCommand (kindName Maven) = "maven clean package" /\
  buildCommand (kindName Maven) <> "mvn clean package" /\
  In (EvContainerCreate "java-build-env"
        ["/bin/sh"; "-c"; "maven clean package"])
     (calls (snd (Worlds.deploy Worlds.mavenProject))).
Proof.
  split; [reflexivity|]. split; [reflexivity|]. split; [discriminate|].
  vm_compute. do 7 right. left. reflexivity.
Qed.

(** ** The manifest *)

(** What a successful [generateDockerfile] leaves behind. *)
Lemma generateDockerfile_ok (E : Env) (buildTool : string) (st : State) :
  os_WriteFile E "Dockerfile" (dockerfileContent buildTool) = None ->
  generateDockerfile E buildTool st
  = (None,
     {| files := <["Dockerfile" := dockerfileContent buildTool]> (files st);
        calls := calls st
                 ++ [EvWriteFile "Dockerfile" (dockerfileContent buildTool)];
        stdout := stdout st; resp := resp st |}).
Proof.
  intros Hwrite. unfold generateDockerfile. unfold_monad.
  rewrite Hwrite. reflexivity.
Qed.

Lemma generateDockerfile_result (E : Env) (buildTool : string) (st : State) :
  fst (generateDockerfile E buildTool st) = None ->
  os_WriteFile E "Dockerfile" (dockerfileContent buildTool) = None.
Proof.
  unfold generateDockerfile. unfold_monad.
  destruct (os_WriteFile E "Dockerfile" (dockerfileContent buildTool));
    [discriminate|reflexivity].
Qed.

(** The one call [generateDockerfile] makes, whether the write succeeds
    or not. *)
Lemma generateDockerfile_calls (E : Env) (buildTool : string) (st : State) :
  calls (snd (generateDockerfile E buildTool st))
  = calls st ++ [EvWriteFile "Dockerfile" (dockerfileContent buildTool)].
Proof.
  unfold generateDockerfile. unfold_monad.
  destruct (os_WriteFile E "Dockerfile" (dockerfileContent buildTool));
    reflexivity.
Qed.

(** C6. The manifest written for Maven installs the package [maven] and
    does not mention [gradle]; the manifest written for Gradle installs
    [gradle] and does not mention [maven].  In both cases the manifest is
    the data of the only call [generateDockerfile] makes. *)
Theorem manifest_toolchain (E : Env) (fs : gmap string string) :
  (exists manifest : string,
      calls (snd (generateDockerfile E (kindName Maven) (initial fs)))
      = [EvWriteFile "Dockerfile" manifest] /\
      strings_Contains manifest "RUN apt-get install -y maven" = true /\
      strings_Contains manifest "gradle" = false) /\
  (exists manifest : string,
      calls (snd (generateDockerfile E (kindName Gradle) (initial fs)))
      = [EvWriteFile "Dockerfile" manifest] /\
      strings_Contains manifest "RUN apt-get install -y gradle" = true /\
      strings_Contains manifest "maven" = false).
Proof.
  split.
  - exists (dockerfileContent (kindName Maven)).
    rewrite generateDockerfile_calls. split; [reflexivity|].
    split; vm_compute; reflexivity.
  - exists (dockerfileContent (kindName Gradle)).
    rewrite generateDockerfile_calls. split; [reflexivity|].
    split; vm_compute; reflexivity.
Qed.

(** C7. The manifest depends on the build-tool kind alone: two successful
    runs for the same kind, in any two worlds and from any two states,
    leave the same bytes in [Dockerfile], namely [dockerfileContent] of the
    kind, and a second run after the first changes no file. *)
Theorem manifest_deterministic
    (E E' : Env) (st st' : State) (k : BuildToolKind) :
  let run1 := generateDockerfile E (kindName k) st in
  let run2 := generateDockerfile E' (kindName k) st' in
  fst run1 = None ->
  fst run2 = None ->
  files (snd run1) !! "Dockerfile" = Some (dockerfileContent (kindName k)) /\
  files (snd run2) !! "Dockerfile" = files (snd run1) !! "Dockerfile" /\
  files (snd (generateDockerfile E (kindName k) (snd run1)))
  = files (snd run1).
Proof.
  intros run1 run2 H1 H2. subst run1 run2.
  apply generateDockerfile_result in H1, H2.
  rewrite !(generateDockerfile_ok _ _ _ H1), (generateDockerfile_ok _ _ _ H2).
  cbn [snd files]. rewrite !lookup_insert_eq, insert_insert_eq. done.
Qed.

Lemma manifest_deterministic_witness :
  fst (generateDockerfile (Worlds.world Worlds.mavenProject)
         "maven" (initial ∅)) = None /\
  fst (generateDockerfile (Worlds.world Worlds.gradleExit3)
         "maven" (initial {["Dockerfile" := "FROM scratch"]})) = None /\
  files (snd (generateDockerfile (Worlds.world Worlds.gradleExit3)
                "maven" (initial {["Dockerfile" := "FROM scratch"]})))
    !! "Dockerfile"
  = files (snd (generateDockerfile (Worlds.world Worlds.mavenProject)
                  "maven" (initial ∅))) !! "Dockerfile".
Proof.
  split; [reflexivity|]. split; [reflexivity|].
  exact (proj1 (proj2 (manifest_deterministic
                         (Worlds.world Worlds.mavenProject)
                         (Worlds.world Worlds.gradleExit3)
                         (initial ∅)
                         (initial {["Dockerfile" := "FROM scratch"]})
                         Maven eq_refl eq_refl))).
Defined.

(** ** Detection *)

(** C8. When the probes for [pom.xml] and for [build.gradle] both succeed,
    [detectBuildTool] answers ["maven"]; the probe for [build.gradle] is
    not even made. *)
Theorem detect_pom_first (E : Env) (projectPath : string) (st : State) :
  os_Stat E (filepath_Join E projectPath "pom.xml") = None ->
  os_Stat E (filepath_Join E projectPath "build.gradle") = None ->
  fst (detectBuildTool E projectPath st) = kindName Maven /\
  calls (snd (detectBuildTool E projectPath st))
  = calls st ++ [EvStat (filepath_Join E projectPath "pom.xml")].
Proof.
  intros Hpom _. unfold detectBuildTool. unfold_monad.
  rewrite Hpom. split; reflexivity.
Qed.

Lemma detect_pom_first_witness :
  fst (detectBuildTool (Worlds.world Worlds.bothMarkers)
         "app-1700000000" (initial ∅)) = "maven".
Proof.
  apply (detect_pom_first (Worlds.world Worlds.bothMarkers)
           "app-1700000000" (initial ∅)); reflexivity.
Defined.

(** ** The build *)

Lemma nonZeroExit_inj (code code' : Z) :
  nonZeroExit code = nonZeroExit code' -> code = code'.
Proof.
  unfold nonZeroExit. intros Heq. cbv [append] in Heq.
  apply fmt_d_inj. simplify_eq. assumption.
Qed.

(** A build that gets as far as waiting for container [ID], and the
    container exits with [StatusCode] on the status channel. *)
Lemma executeBuild_exit
    (E : Env) (projectPath buildTool ID : string) (StatusCode : Z)
    (st : State) :
  client_NewClientWithOpts E = None ->
  os_WriteFile E "Dockerfile" (dockerfileContent buildTool) = None ->
  os_Open E projectPath = None ->
  cli_ImageBuild E projectPath "Dockerfile" ["java-build-env"] = None ->
  cli_ContainerCreate E "java-build-env" (containerCmd buildTool) = Ok ID ->
  cli_ContainerStart E ID = None ->
  cli_ContainerWait E ID = OnStatusCh StatusCode ->
  StatusCode <> 0 ->
  executeBuild E projectPath buildTool st
  = (Some (nonZeroExit StatusCode),
     {| files := <["Dockerfile" := dockerfileContent buildTool]> (files st);
        calls := calls st ++
          [EvNewClient;
           EvWriteFile "Dockerfile" (dockerfileContent buildTool);
           EvOpen projectPath;
           EvImageBuild projectPath "Dockerfile" ["java-build-env"];
           EvContainerCreate "java-build-env" (containerCmd buildTool);
           EvContainerStart ID;
           EvContainerWait ID;
           EvClose BuildRespBody;
           EvClose (BuildContext projectPath)];
        stdout := stdout st; resp := resp st |}).
Proof.
  intros Hcli Hwrite Hopen Himg Hcreate Hstart Hwait Hcode.
  unfold executeBuild, generateDockerfile. unfold_monad.
  rewrite Hcli, Hwrite, Hopen, Himg, Hcreate, Hstart, Hwait.
  cbn. destruct (Z.eqb_spec StatusCode 0) as [|_]; [contradiction|].
  cbn. rewrite <- !app_assoc. reflexivity.
Qed.

(** C5. When the build gets as far as waiting for the container and the
    container delivers a nonzero exit code on the status channel,
    [executeBuild] returns the error of line 178 for that very code, and
    [CopyFromContainer] is not among the calls made. *)
Theorem nonzero_exit_skips_copy
    (E : Env) (projectPath buildTool ID : string) (StatusCode : Z)
    (fs : gmap string string) :
  client_NewClientWithOpts E = None ->
  os_WriteFile E "Dockerfile" (dockerfileContent buildTool) = None ->
  os_Open E projectPath = None ->
  cli_ImageBuild E projectPath "Dockerfile" ["java-build-env"] = None ->
  cli_ContainerCreate E "java-build-env" (containerCmd buildTool) = Ok ID ->
  cli_ContainerStart E ID = None ->
  cli_ContainerWait E ID = OnStatusCh StatusCode ->
  StatusCode <> 0 ->
  fst (executeBuild E projectPath buildTool (initial fs))
  = Some (nonZeroExit StatusCode) /\
  (forall code : Z,
      fst (executeBuild E projectPath buildTool (initial fs))
      = Some (nonZeroExit code) -> code = StatusCode) /\
  existsb isCopyFrom
    (calls (snd (executeBuild E projectPath buildTool (initial fs))))
  = false.
Proof.
  intros Hcli Hwrite Hopen Himg Hcreate Hstart Hwait Hcode.
  rewrite (executeBuild_exit E projectPath buildTool ID StatusCode
             (initial fs)) by assumption.
  cbn [fst snd calls initial]. split; [reflexivity|]. split.
  - intros code Hmsg. apply nonZeroExit_inj. congruence.
  - reflexivity.
Qed.

Lemma nonzero_exit_skips_copy_witness :
  fst (Worlds.build Worlds.gradleExit3 "gradle")
  = Some "container exited with non-zero status: 3" /\
  existsb isCopyFrom (calls (snd (Worlds.build Worlds.gradleExit3 "gradle")))
  = false.
Proof.
  pose proof (nonzero_exit_skips_copy
                (Worlds.world Worlds.gradleExit3) "app-1700000000" "gradle"
                "c0ffee" 3 ∅
                eq_refl eq_refl eq_refl eq_refl eq_refl eq_refl eq_refl)
    as Hrun.
  destruct Hrun as (Hresult & _ & Hcopy); [discriminate|].
  split; [exact Hresult|exact Hcopy].
Defined.

(** C2 as worded fails on a build where everything succeeds: the copy
    from the container is the 8th call and [MkdirAll "build-output"] the
    9th, so the directory is not made before the copy. *)
Lemma mkdir_before_copy_counterexample :
  calls (snd (Worlds.build Worlds.mavenProject "maven"))
  = [EvNewClient;
     EvWriteFile "Dockerfile" (dockerfileContent "maven");
     EvOpen "app-1700000000";
     EvImageBuild "app-1700000000" "Dockerfile" ["java-build-env"];
     EvContainerCreate "java-build-env"
       ["/bin/sh"; "-c"; "maven clean package"];
     EvContainerStart "c0ffee";
     EvContainerWait "c0ffee";
     EvCopyFromContainer "c0ffee" "/app/target";
     EvMkdirAll "build-output";
     EvClose CopyResp;
     EvClose BuildRespBody;
     EvClose (BuildContext "app-1700000000")] /\
  existsb isCopyFrom (calls (snd (Worlds.build Worlds.mavenProject "maven")))
  = true /\
  comesBefore (isMkdirOf "build-output") isCopyFrom
    (calls (snd (Worlds.build Worlds.mavenProject "maven")))
  = false.
Proof. repeat split; vm_compute; reflexivity. Qed.

(** C2, as the program has it.  In every build, [MkdirAll "build-output"]
    is never made before [CopyFromContainer]; when it is made, it comes
    after a [CopyFromContainer] that succeeded; and it has been made, and
    succeeded, whenever [executeBuild] returns [nil]. *)
Theorem copy_before_mkdir
    (E : Env) (projectPath buildTool : string) (fs : gmap string string) :
  comesBefore (isMkdirOf "build-output") isCopyFrom
    (calls (snd (executeBuild E projectPath buildTool (initial fs))))
  = false /\
  (existsb (isMkdirOf "build-output")
     (calls (snd (executeBuild E projectPath buildTool (initial fs))))
   = true ->
   comesBefore isCopyFrom (isMkdirOf "build-output")
     (calls (snd (executeBuild E projectPath buildTool (initial fs))))
   = true /\
   exists ID : string,
     cli_ContainerCreate E "java-build-env" (containerCmd buildTool) = Ok ID
     /\ cli_CopyFromContainer E ID "/app/target" = None) /\
  (fst (executeBuild E projectPath buildTool (initial fs)) = None ->
   existsb (isMkdirOf "build-output")
     (calls (snd (executeBuild E projectPath buildTool (initial fs))))
   = true /\
   os_MkdirAll E "build-output" = None).
Proof.
  unfold executeBuild, generateDockerfile, waitVerdict. unfold_monad.
  case_oracles;
    (split; [reflexivity|]); split; intros Hrun;
    try discriminate Hrun; eauto.
Qed.

Lemma copy_before_mkdir_witness :
  existsb (isMkdirOf "build-output")
    (calls (snd (Worlds.build Worlds.mavenProject "maven"))) = true /\
  fst (Worlds.build Worlds.mavenProject "maven") = None /\
  comesBefore isCopyFrom (isMkdirOf "build-output")
    (calls (snd (Worlds.build Worlds.mavenProject "maven"))) = true /\
  os_MkdirAll (Worlds.world Worlds.mavenProject) "build-output" = None.
Proof.
  pose proof (copy_before_mkdir (Worlds.world Worlds.mavenProject)
                "app-1700000000" "maven" ∅) as (_ & Hmade & Hdone).
  assert (Hmk : existsb (isMkdirOf "build-output")
                  (calls (snd (Worlds.build Worlds.mavenProject "maven")))
                = true) by (vm_compute; reflexivity).
  assert (Hok : fst (Worlds.build Worlds.mavenProject "maven") = None)
    by (vm_compute; reflexivity).
  split; [exact Hmk|]. split; [exact Hok|].
  split; [exact (proj1 (Hmade Hmk))|exact (proj2 (Hdone Hok))].
Defined.

(** ** The handler *)

Lemma projectDir_nonempty (E : Env) (repoName : string) :
  repoName <> "" -> String.eqb (projectDirFor E repoName) "" = false.
Proof. destruct repoName as [|c rest]; [congruence|reflexivity]. Qed.

Lemma repoName_nonempty (repoName : string) :
  repoName <> "" -> String.eqb repoName "" = false.
Proof. destruct repoName as [|c rest]; [congruence|reflexivity]. Qed.

(** C10. Splitting the trimmed URL on ["/"] always yields at least one
    segment, so [getRepoNameFromURL] returns a name for every input; for a
    URL that ends in ["/"] the name is empty; and on an empty name the
    handler prints its complaint and returns, having called nothing and
    written no response. *)
Theorem getRepoNameFromURL_total :
  (forall repoURL : string,
      1 <= len (strings_Split
                  (strings_TrimPrefix repoURL "https://github.com/") "/") /\
      is_Some (getRepoNameFromURL repoURL)) /\
  (forall repoURL : string, getRepoNameFromURL (repoURL +:+ "/") = Some "") /\
  (forall (E : Env) (r : Request) (req : RepoRequest) (st : State),
      json_Decode E (Body r) = Ok req ->
      getRepoNameFromURL (RepoURL req) = Some "" ->
      deployHandler E r st
      = (Returned,
         {| files := files st; calls := calls st;
            stdout := (stdout st ++ [RepoURL req +:+ nl])
                      ++ ["Failed to extract repository name from URL."
                          +:+ nl];
            resp := resp st |})).
Proof.
  split; [|split].
  - intros repoURL.
    pose proof (strings_Split_nonempty
                  (strings_TrimPrefix repoURL "https://github.com/") "/")
      as Hparts.
    split.
    + unfold len.
      destruct (strings_Split _ "/"); [by destruct Hparts|].
      cbn [length]. lia.
    + unfold getRepoNameFromURL. apply index_last_is_Some. by apply Hparts.
  - intros repoURL. unfold getRepoNameFromURL, strings_TrimPrefix.
    assert (Hslash : forall t : string,
               index (strings_Split (t +:+ "/") "/")
                     (len (strings_Split (t +:+ "/") "/") - 1) = Some "").
    { intros t. unfold strings_Split.
      destruct (split_scan_trailing "/"%char t "") as [segs ->].
      apply index_last. }
    destruct (strings_HasPrefix (repoURL +:+ "/") "https://github.com/");
      [|apply Hslash].
    destruct (slice_from_trailing "/"%char
                (String.length "https://github.com/") repoURL)
      as [->|[u ->]]; [reflexivity|apply Hslash].
  - intros E r req st Hreq Hname. unfold deployHandler. unfold_monad.
    rewrite Hreq, Hname. reflexivity.
Qed.

Lemma getRepoNameFromURL_total_witness :
  deployHandler (Worlds.world Worlds.trailingSlash)
                (Worlds.requestOf Worlds.trailingSlash) (initial ∅)
  = (Returned,
     {| files := ∅; calls := [];
        stdout := ["https://github.com/acme/app/" +:+ nl;
                   "Failed to extract repository name from URL." +:+ nl];
        resp := {| status := None; body := "" |} |}).
Proof.
  exact (proj2 (proj2 getRepoNameFromURL_total)
           (Worlds.world Worlds.trailingSlash)
           (Worlds.requestOf Worlds.trailingSlash)
           {| RepoURL := "https://github.com/acme/app/" |}
           (initial ∅) eq_refl eq_refl).
Defined.

(** What [detectBuildTool] found when it answers ["unknown"]. *)
Lemma detect_unknown (E : Env) (projectPath : string) (st : State) :
  fst (detectBuildTool E projectPath st) = kindName Unknown ->
  exists err err' : error,
    os_Stat E (filepath_Join E projectPath "pom.xml") = Some err /\
    os_Stat E (filepath_Join E projectPath "build.gradle") = Some err'.
Proof.
  unfold detectBuildTool. unfold_monad.
  destruct (os_Stat E (filepath_Join E projectPath "pom.xml")) as [err|];
    [|discriminate].
  destruct (os_IsNotExist E err);
    (destruct (os_Stat E (filepath_Join E projectPath "build.gradle"))
      as [err'|]; [|discriminate]); eauto.
Qed.

(** C4. When the handler has cloned the repository and detection answers
    ["unknown"], the client gets status 400, the calls made are the
    directory creation, the clone and the two probes and nothing else: no
    manifest is written, no image built, no container created. *)
Theorem unknown_tool_rejected
    (E : Env) (r : Request) (req : RepoRequest) (repoName : string)
    (fs : gmap string string) :
  json_Decode E (Body r) = Ok req ->
  getRepoNameFromURL (RepoURL req) = Some repoName ->
  repoName <> "" ->
  os_MkdirAll E (projectDirFor E repoName) = None ->
  exec_Run E (cloneCmd (RepoURL req) (projectDirFor E repoName)) = None ->
  fst (detectBuildTool E (projectDirFor E repoName) (initial fs))
  = kindName Unknown ->
  fst (deployHandler E r (initial fs)) = Returned /\
  status (resp (snd (deployHandler E r (initial fs))))
  = Some StatusBadRequest /\
  calls (snd (deployHandler E r (initial fs)))
  = [EvMkdirAll (projectDirFor E repoName);
     EvExecRun (cloneCmd (RepoURL req) (projectDirFor E repoName));
     EvStat (filepath_Join E (projectDirFor E repoName) "pom.xml");
     EvStat (filepath_Join E (projectDirFor E repoName) "build.gradle")] /\
  existsb isBuildStep (calls (snd (deployHandler E r (initial fs)))) = false /\
  files (snd (deployHandler E r (initial fs))) = fs.
Proof.
  intros Hreq Hname Hne Hmkdir Hclone Hdetect.
  apply detect_unknown in Hdetect as (err & err' & Hpom & Hgradle).
  pose proof (projectDir_nonempty E repoName Hne) as Hdir.
  pose proof (repoName_nonempty repoName Hne) as Hrepo.
  unfold projectDirFor, cloneCmd in *.
  unfold deployHandler, createProjectDir, fetchCodeFromGitHub,
    detectBuildTool.
  unfold_monad.
  rewrite Hreq, Hname, Hrepo. cbn. rewrite Hmkdir, Hdir. cbn.
  rewrite Hclone. cbn. rewrite Hpom.
  destruct (os_IsNotExist E err); cbn; rewrite Hgradle;
    destruct (os_IsNotExist E err'); cbn; repeat split; reflexivity.
Qed.

Lemma unknown_tool_rejected_witness :
  status (resp (snd (Worlds.deploy Worlds.noMarker)))
  = Some StatusBadRequest /\
  existsb isBuildStep (calls (snd (Worlds.deploy Worlds.noMarker))) = false.
Proof.
  pose proof (unknown_tool_rejected
                (Worlds.world Worlds.noMarker)
                (Worlds.requestOf Worlds.noMarker)
                {| RepoURL := "https://github.com/acme/app" |} "app" ∅
                eq_refl eq_refl) as Hrun.
  destruct Hrun as (_ & Hstatus & _ & Hsteps & _);
    [discriminate|reflexivity|reflexivity|reflexivity|].
  split; [exact Hstatus|exact Hsteps].
Defined.

(** A clone that fails ends the handler without a word to the client. *)
Lemma fetch_failure_silent
    (E : Env) (r : Request) (req : RepoRequest) (repoName : string)
    (err : error) (st : State) :
  json_Decode E (Body r) = Ok req ->
  getRepoNameFromURL (RepoURL req) = Some repoName ->
  repoName <> "" ->
  os_MkdirAll E (projectDirFor E repoName) = None ->
  exec_Run E (cloneCmd (RepoURL req) (projectDirFor E repoName))
  = Some err ->
  fst (deployHandler E r st) = Returned /\
  resp (snd (deployHandler E r st)) = resp st.
Proof.
  intros Hreq Hname Hne Hmkdir Hclone.
  pose proof (projectDir_nonempty E repoName Hne) as Hdir.
  pose proof (repoName_nonempty repoName Hne) as Hrepo.
  unfold projectDirFor, cloneCmd in *.
  unfold deployHandler, createProjectDir, fetchCodeFromGitHub.
  unfold_monad.
  rewrite Hreq, Hname, Hrepo. cbn. rewrite Hmkdir, Hdir. cbn.
  rewrite Hclone. split; reflexivity.
Qed.

(** C3. Not every failure reaches the client.  When the clone fails, and
    when the build ends with exit status 3, the handler prints the failure
    and returns with no header and no body written, so the client receives
    200 with an empty body. *)
Theorem failures_answered_200 :
  (fst (Worlds.deploy Worlds.brokenClone) = Returned /\
   resp (snd (Worlds.deploy Worlds.brokenClone))
   = {| status := None; body := "" |} /\
   clientStatus (resp (snd (Worlds.deploy Worlds.brokenClone))) = StatusOK /\
   last (stdout (snd (Worlds.deploy Worlds.brokenClone)))
   = Some ("Error fetching code: failed to clone repo: exit status 128"
           +:+ nl)) /\
  (fst (Worlds.build Worlds.gradleExit3 "gradle") = Some (nonZeroExit 3) /\
   fst (Worlds.deploy Worlds.gradleExit3) = Returned /\
   resp (snd (Worlds.deploy Worlds.gradleExit3))
   = {| status := None; body := "" |} /\
   clientStatus (resp (snd (Worlds.deploy Worlds.gradleExit3))) = StatusOK /\
   last (stdout (snd (Worlds.deploy Worlds.gradleExit3)))
   = Some ("Build failed: <nil>" +:+ nl)).
Proof. repeat split; vm_compute; reflexivity. Qed.

(** ** More on the repository name *)

Lemma append_cons (c : ascii) (s t : string) :
  String c s +:+ t = String c (s +:+ t).
Proof. reflexivity. Qed.

Lemma append_assoc (s t u : string) : (s +:+ t) +:+ u = s +:+ t +:+ u.
Proof.
  induction s as [|c s IH]; [reflexivity|].
  rewrite !append_cons. by rewrite IH.
Qed.

Lemma prefix_empty (s : string) : String.prefix "" s = true.
Proof. by destruct s. Qed.

(** One step of the scan for a separator of one byte. *)
Lemma split_scan_step (sep c : ascii) (cur rest : string) :
  split_scan (String sep "") 0 cur (String c rest)
  = if Ascii.eqb sep c
    then cur :: split_scan (String sep "") 0 "" rest
    else split_scan (String sep "") 0 (cur +:+ String c "") rest.
Proof.
  cbn [split_scan String.prefix String.length Nat.sub].
  destruct (ascii_dec sep c) as [->|Hne].
  - by rewrite prefix_empty, Ascii.eqb_refl.
  - destruct (Ascii.eqb_spec sep c); [contradiction|reflexivity].
Qed.

Lemma contains_step (sep c : ascii) (rest : string) :
  strings_Contains (String c rest) (String sep "")
  = Ascii.eqb sep c || strings_Contains rest (String sep "").
Proof.
  cbn [strings_Contains String.prefix].
  destruct (ascii_dec sep c) as [->|Hne].
  - by rewrite prefix_empty, Ascii.eqb_refl.
  - by destruct (Ascii.eqb_spec sep c).
Qed.

Lemma contains_append (sep : ascii) (s t : string) :
  strings_Contains (s +:+ t) (String sep "")
  = strings_Contains s (String sep "") || strings_Contains t (String sep "").
Proof.
  induction s as [|c s IH].
  - change ("" +:+ t) with t. reflexivity.
  - rewrite append_cons, !contains_step, IH. by rewrite orb_assoc.
Qed.

(** A text without the separator is one segment. *)
Lemma split_scan_plain (sep : ascii) (name : string) :
  strings_Contains name (String sep "") = false ->
  forall cur : string,
    split_scan (String sep "") 0 cur name = [cur +:+ name].
Proof.
  induction name as [|c rest IH]; intros Hname cur.
  - cbn [split_scan]. f_equal. induction cur as [|d cur IHcur];
      [reflexivity|]. by rewrite append_cons, <- IHcur.
  - rewrite contains_step in Hname. apply orb_false_elim in Hname as [Hc Hr].
    rewrite split_scan_step, Hc, (IH Hr), append_assoc. reflexivity.
Qed.

(** The last segment is what follows the last separator. *)
Lemma split_scan_last (sep : ascii) (name : string) :
  strings_Contains name (String sep "") = false ->
  forall t cur : string,
    exists segments : list string,
      split_scan (String sep "") 0 cur (t +:+ String sep name)
      = segments ++ [name].
Proof.
  intros Hname. induction t as [|c rest IH]; intros cur.
  - exists [cur]. change ("" +:+ String sep name) with (String sep name).
    rewrite split_scan_step, Ascii.eqb_refl, (split_scan_plain _ _ Hname).
    reflexivity.
  - rewrite append_cons, split_scan_step. destruct (Ascii.eqb sep c).
    + destruct (IH "") as [segs ->]. by exists (cur :: segs).
    + apply IH.
Qed.

(** No segment contains the separator. *)
Lemma split_scan_segments (sep : ascii) (s : string) :
  forall cur : string,
    strings_Contains cur (String sep "") = false ->
    Forall (fun segment => strings_Contains segment (String sep "") = false)
           (split_scan (String sep "") 0 cur s).
Proof.
  induction s as [|c rest IH]; intros cur Hcur.
  - cbn [split_scan]. by repeat constructor.
  - rewrite split_scan_step. destruct (Ascii.eqb sep c) eqn:Hc.
    + constructor; [exact Hcur|]. by apply IH.
    + apply IH. rewrite contains_append, Hcur, contains_step, Hc.
      reflexivity.
Qed.

Lemma prefix_contains (sep : ascii) (p s : string) :
  String.prefix (p +:+ String sep "") s = true ->
  strings_Contains s (String sep "") = true.
Proof.
  revert s. induction p as [|a p IH]; intros s Hp.
  - change ("" +:+ String sep "") with (String sep "") in Hp.
    destruct s as [|c s]; [discriminate|].
    rewrite contains_step. cbn [String.prefix] in Hp.
    destruct (ascii_dec sep c) as [->|]; [|discriminate].
    by rewrite Ascii.eqb_refl.
  - rewrite append_cons in Hp. destruct s as [|c s]; [discriminate|].
    cbn [String.prefix] in Hp. destruct (ascii_dec a c); [|discriminate].
    rewrite contains_step, (IH _ Hp). by rewrite orb_true_r.
Qed.

(** Cutting a prefix that ends in the separator from a text whose last
    separator is followed by [name] leaves [name] or a text that still
    ends in the separator and [name]. *)
Lemma slice_prefix_last (sep : ascii) (name p : string) :
  strings_Contains name (String sep "") = false ->
  forall s : string,
    String.prefix (p +:+ String sep "") (s +:+ String sep name) = true ->
    slice_from (String.length (p +:+ String sep ""))
               (s +:+ String sep name) = name
    \/ exists u : string,
         slice_from (String.length (p +:+ String sep ""))
                    (s +:+ String sep name) = u +:+ String sep name.
Proof.
  intros Hname. induction p as [|a p IH]; intros s Hp.
  - change ("" +:+ String sep "") with (String sep "") in *.
    destruct s as [|c s].
    + left. reflexivity.
    + right. exists s. reflexivity.
  - rewrite append_cons in *. destruct s as [|c s].
    + change ("" +:+ String sep name) with (String sep name) in Hp.
      cbn [String.prefix] in Hp. destruct (ascii_dec a sep); [|discriminate].
      apply prefix_contains in Hp. congruence.
    + rewrite append_cons in *. cbn [String.prefix] in Hp.
      destruct (ascii_dec a c); [|discriminate].
      cbn [String.length slice_from]. by apply IH.
Qed.

(** X1. The repository name is the text after the last slash of the URL,
    whatever comes before it, and the whole URL when it has no slash. *)
Theorem repoName_after_last_slash (name : string) :
  strings_Contains name "/" = false ->
  (forall front : string,
      getRepoNameFromURL (front +:+ "/" +:+ name) = Some name) /\
  getRepoNameFromURL name = Some name.
Proof.
  intros Hname.
  assert (Hlast : forall t : string,
             index (strings_Split (t +:+ String "/" name) "/")
                   (len (strings_Split (t +:+ String "/" name) "/") - 1)
             = Some name).
  { intros t. unfold strings_Split.
    destruct (split_scan_last "/"%char name Hname t "") as [segs ->].
    apply index_last. }
  assert (Hplain : index (strings_Split name "/")
                         (len (strings_Split name "/") - 1) = Some name).
  { unfold strings_Split. rewrite (split_scan_plain _ _ Hname).
    reflexivity. }
  split.
  - intros front. unfold getRepoNameFromURL, strings_TrimPrefix.
    change ("/" +:+ name) with (String "/" name).
    destruct (strings_HasPrefix _ _) eqn:Hp; [|apply Hlast].
    destruct (slice_prefix_last "/"%char name "https://github.com" Hname
                front Hp) as [Hcut|[u Hcut]];
      change (String.length "https://github.com/")
        with (String.length ("https://github.com" +:+ "/"));
      rewrite Hcut; [exact Hplain|apply Hlast].
  - unfold getRepoNameFromURL, strings_TrimPrefix.
    destruct (strings_HasPrefix _ _) eqn:Hp; [|exact Hplain].
    apply (prefix_contains "/"%char "https://github.com") in Hp.
    congruence.
Qed.

Lemma repoName_after_last_slash_witness :
  getRepoNameFromURL "https://github.com/acme/app.git" = Some "app.git" /\
  getRepoNameFromURL "git@example.org:acme/app" = Some "app".
Proof.
  split.
  - exact (proj1 (repoName_after_last_slash "app.git" eq_refl)
             "https://github.com/acme").
  - exact (proj1 (repoName_after_last_slash "app" eq_refl)
             "git@example.org:acme").
Defined.

(** X2. The name [getRepoNameFromURL] returns never contains a slash. *)
Theorem repoName_has_no_slash (repoURL name : string) :
  getRepoNameFromURL repoURL = Some name ->
  strings_Contains name "/" = false.
Proof.
  unfold getRepoNameFromURL, index, strings_Split.
  destruct (_ <? 0); [discriminate|]. intros Hname.
  apply list_elem_of_lookup_2 in Hname.
  pose proof (split_scan_segments "/"%char
                (strings_TrimPrefix repoURL "https://github.com/") ""
                eq_refl) as Hall.
  rewrite Forall_forall in Hall. by apply Hall.
Qed.

Lemma repoName_has_no_slash_witness :
  strings_Contains "app" "/" = false.
Proof.
  exact (repoName_has_no_slash "https://github.com/acme/app" "app" eq_refl).
Defined.

(** ** More on the build *)

(** X3. [executeBuild] leaves the HTTP response and the printed lines
    alone, and the only file it may change is [Dockerfile]. *)
Theorem executeBuild_frame
    (E : Env) (projectPath buildTool : string) (st : State) :
  resp (snd (executeBuild E projectPath buildTool st)) = resp st /\
  stdout (snd (executeBuild E projectPath buildTool st)) = stdout st /\
  forall name : string,
    name <> "Dockerfile" ->
    files (snd (executeBuild E projectPath buildTool st)) !! name
    = files st !! name.
Proof.
  unfold executeBuild, generateDockerfile, waitVerdict. unfold_monad.
  case_oracles; (split; [reflexivity|]); (split; [reflexivity|]);
    intros name Hname; try reflexivity; by rewrite lookup_insert_ne.
Qed.

Lemma executeBuild_frame_witness :
  files (snd (executeBuild (Worlds.world Worlds.mavenProject)
                "app-1700000000" "maven"
                (initial {["pom.xml" := "<project/>"]}))) !! "pom.xml"
  = Some "<project/>".
Proof.
  rewrite (proj2 (proj2 (executeBuild_frame
                           (Worlds.world Worlds.mavenProject)
                           "app-1700000000" "maven"
                           (initial {["pom.xml" := "<project/>"]})))
             "pom.xml"); [reflexivity|discriminate].
Defined.

(** X4. [executeBuild] returns [nil] exactly when every step succeeded
    and the wait ended with exit status 0 or with [nil] on the error
    channel; the calls are then the twelve of the full pipeline, with one
    copy from the container and the three handles closed last opened
    first. *)
Theorem executeBuild_success
    (E : Env) (projectPath buildTool : string) (fs : gmap string string) :
  fst (executeBuild E projectPath buildTool (initial fs)) = None <->
  exists ID : string,
    client_NewClientWithOpts E = None /\
    os_WriteFile E "Dockerfile" (dockerfileContent buildTool) = None /\
    os_Open E projectPath = None /\
    cli_ImageBuild E projectPath "Dockerfile" ["java-build-env"] = None /\
    cli_ContainerCreate E "java-build-env" (containerCmd buildTool) = Ok ID /\
    cli_ContainerStart E ID = None /\
    (cli_ContainerWait E ID = OnStatusCh 0 \/
     cli_ContainerWait E ID = OnErrCh None) /\
    cli_CopyFromContainer E ID "/app/target" = None /\
    os_MkdirAll E "build-output" = None /\
    calls (snd (executeBuild E projectPath buildTool (initial fs)))
    = [EvNewClient;
       EvWriteFile "Dockerfile" (dockerfileContent buildTool);
       EvOpen projectPath;
       EvImageBuild projectPath "Dockerfile" ["java-build-env"];
       EvContainerCreate "java-build-env" (containerCmd buildTool);
       EvContainerStart ID;
       EvContainerWait ID;
       EvCopyFromContainer ID "/app/target";
       EvMkdirAll "build-output";
       EvClose CopyResp;
       EvClose BuildRespBody;
       EvClose (BuildContext projectPath)].
Proof.
  split.
  - unfold executeBuild, generateDockerfile, waitVerdict. unfold_monad.
    case_oracles; intros Hrun; try discriminate Hrun; subst;
      match goal with
      | H : cli_ContainerCreate _ _ _ = Ok ?id |- _ => exists id
      end; split_and!; auto.
  - intros (ID & Hcli & Hwrite & Hopen & Himg & Hcreate & Hstart & Hwait
            & Hcopy & Hmkdir & _).
    unfold executeBuild, generateDockerfile, waitVerdict. unfold_monad.
    rewrite Hcli, Hwrite, Hopen, Himg, Hcreate, Hstart.
    destruct Hwait as [Hwait|Hwait]; rewrite Hwait; cbn;
      rewrite Hcopy, Hmkdir; reflexivity.
Qed.

Lemma executeBuild_success_witness :
  exists ID : string,
    cli_ContainerCreate (Worlds.world Worlds.mavenProject)
      "java-build-env" (containerCmd "maven") = Ok ID /\
    cli_CopyFromContainer (Worlds.world Worlds.mavenProject)
      ID "/app/target" = None.
Proof.
  destruct (proj1 (executeBuild_success
                     (Worlds.world Worlds.mavenProject)
                     "app-1700000000" "maven" ∅) eq_refl)
    as (ID & _ & _ & _ & _ & Hcreate & _ & _ & Hcopy & _).
  exists ID. split; [exact Hcreate|exact Hcopy].
Defined.

(** X5. A container is created only after the client, the manifest, the
    project directory and the image build all succeeded, and the copy from
    the container is made only after the container was created and started
    and the wait ended with exit status 0 or with [nil] on the error
    channel. *)
Theorem executeBuild_prerequisites
    (E : Env) (projectPath buildTool : string) (fs : gmap string string) :
  (existsb isContainerCreate
     (calls (snd (executeBuild E projectPath buildTool (initial fs))))
   = true ->
   client_NewClientWithOpts E = None /\
   os_WriteFile E "Dockerfile" (dockerfileContent buildTool) = None /\
   os_Open E projectPath = None /\
   cli_ImageBuild E projectPath "Dockerfile" ["java-build-env"] = None) /\
  (existsb isCopyFrom
     (calls (snd (executeBuild E projectPath buildTool (initial fs))))
   = true ->
   exists ID : string,
     cli_ContainerCreate E "java-build-env" (containerCmd buildTool) = Ok ID
     /\ cli_ContainerStart E ID = None
     /\ (cli_ContainerWait E ID = OnStatusCh 0 \/
         cli_ContainerWait E ID = OnErrCh None)).
Proof.
  unfold executeBuild, generateDockerfile, waitVerdict. unfold_monad.
  case_oracles; split; intros Hcalls; try discriminate Hcalls; subst;
    try (split_and!; reflexivity);
    match goal with
    | H : cli_ContainerCreate _ _ _ = Ok ?id |- _ => exists id
    end; split_and!; auto.
Qed.

Lemma executeBuild_prerequisites_witness :
  cli_ImageBuild (Worlds.world Worlds.gradleExit3)
    (Worlds.getDir (Worlds.url Worlds.gradleExit3))
    "Dockerfile" ["java-build-env"] = None.
Proof.
  assert (Hcreated :
            existsb isContainerCreate
              (calls (snd (Worlds.build Worlds.gradleExit3 "gradle")))
            = true) by (vm_compute; reflexivity).
  exact (proj2 (proj2 (proj2
           (proj1 (executeBuild_prerequisites
                     (Worlds.world Worlds.gradleExit3)
                     (Worlds.getDir (Worlds.url Worlds.gradleExit3))
                     "gradle" ∅) Hcreated)))).
Defined.

(** X6. On every path through [executeBuild], failures included, each
    handle is closed exactly once if it was obtained and never otherwise:
    the project directory when [os.Open] succeeded, the image build
    response when [ImageBuild] succeeded, the copy stream when
    [CopyFromContainer] succeeded.  Once the directory is open, closing it
    is the last call. *)
Theorem executeBuild_closes
    (E : Env) (projectPath buildTool : string) (fs : gmap string string) :
  let l := calls (snd (executeBuild E projectPath buildTool (initial fs))) in
  countb (isCloseOf (BuildContext projectPath)) l
  = (if existsb isOpen l && isNil (os_Open E projectPath)
     then 1 else 0)%nat /\
  countb (isCloseOf BuildRespBody) l
  = (if existsb isImageBuild l
        && isNil (cli_ImageBuild E projectPath "Dockerfile"
                    ["java-build-env"])
     then 1 else 0)%nat /\
  countb (isCloseOf CopyResp) l
  = (if existsb (fun e =>
                   match e with
                   | EvCopyFromContainer ID path =>
                       isNil (cli_CopyFromContainer E ID path)
                   | _ => false
                   end) l
     then 1 else 0)%nat /\
  (existsb isOpen l && isNil (os_Open E projectPath) = true ->
   last l = Some (EvClose (BuildContext projectPath))).
Proof.
  intros l. subst l.
  unfold executeBuild, generateDockerfile, waitVerdict. unfold_monad.
  case_oracles;
    repeat match goal with
           | H : cli_CopyFromContainer _ _ _ = _ |- _ => rewrite H
           end;
    cbn; rewrite ?String.eqb_refl; split_and!;
    try reflexivity; try congruence;
    intros Hopen; try discriminate Hopen; reflexivity.
Qed.

Lemma executeBuild_closes_witness :
  last (calls (snd (Worlds.build Worlds.gradleExit3 "gradle")))
  = Some (EvClose (BuildContext
                     (Worlds.getDir (Worlds.url Worlds.gradleExit3)))).
Proof.
  apply (executeBuild_closes (Worlds.world Worlds.gradleExit3)
           (Worlds.getDir (Worlds.url Worlds.gradleExit3)) "gradle" ∅).
  vm_compute. reflexivity.
Defined.

(** X7. When the build gets as far as waiting and the error channel
    delivers an error, [executeBuild] returns it behind the words of line
    174, makes no copy from the container, and still closes the image
    build response and the project directory. *)
Theorem executeBuild_wait_error
    (E : Env) (projectPath buildTool ID : string) (err : error)
    (st : State) :
  client_NewClientWithOpts E = None ->
  os_WriteFile E "Dockerfile" (dockerfileContent buildTool) = None ->
  os_Open E projectPath = None ->
  cli_ImageBuild E projectPath "Dockerfile" ["java-build-env"] = None ->
  cli_ContainerCreate E "java-build-env" (containerCmd buildTool) = Ok ID ->
  cli_ContainerStart E ID = None ->
  cli_ContainerWait E ID = OnErrCh (Some err) ->
  fst (executeBuild E projectPath buildTool st)
  = Some ("error while waiting for container: " +:+ err) /\
  calls (snd (executeBuild E projectPath buildTool st))
  = calls st ++
    [EvNewClient;
     EvWriteFile "Dockerfile" (dockerfileContent buildTool);
     EvOpen projectPath;
     EvImageBuild projectPath "Dockerfile" ["java-build-env"];
     EvContainerCreate "java-build-env" (containerCmd buildTool);
     EvContainerStart ID;
     EvContainerWait ID;
     EvClose BuildRespBody;
     EvClose (BuildContext projectPath)].
Proof.
  intros Hcli Hwrite Hopen Himg Hcreate Hstart Hwait.
  unfold executeBuild, generateDockerfile. unfold_monad.
  rewrite Hcli, Hwrite, Hopen, Himg, Hcreate, Hstart, Hwait.
  cbn. rewrite <- !app_assoc. split; reflexivity.
Qed.

Lemma executeBuild_wait_error_witness :
  fst (executeBuild (Faults.world Worlds.mavenProject Faults.daemonGone)
         "app-1700000000" "maven" (initial ∅))
  = Some "error while waiting for container: connection refused".
Proof.
  exact (proj1 (executeBuild_wait_error
                  (Faults.world Worlds.mavenProject Faults.daemonGone)
                  "app-1700000000" "maven" "c0ffee" "connection refused"
                  (initial ∅)
                  eq_refl eq_refl eq_refl eq_refl eq_refl eq_refl eq_refl)).
Defined.

(** ** The project directory *)

Lemma projectDirFor_not_empty (E : Env) (repoName : string) :
  projectDirFor E repoName <> "".
Proof. by destruct repoName. Qed.

Lemma append_inj_l (s t u : string) : s +:+ t = s +:+ u -> t = u.
Proof.
  induction s as [|c s IH]; [by intros|].
  rewrite !append_cons. intros [= Heq]. by apply IH.
Qed.

(** X8. [createProjectDir] returns the empty string exactly when
    [MkdirAll] fails, for every repository name, the empty one included;
    otherwise it returns the directory it made.  Either way it makes that
    one call. *)
Theorem createProjectDir_empty_iff_failed
    (E : Env) (repoName : string) (st : State) :
  (fst (createProjectDir E repoName st) = "" <->
   os_MkdirAll E (projectDirFor E repoName) <> None) /\
  (os_MkdirAll E (projectDirFor E repoName) = None ->
   fst (createProjectDir E repoName st) = projectDirFor E repoName) /\
  calls (snd (createProjectDir E repoName st))
  = calls st ++ [EvMkdirAll (projectDirFor E repoName)].
Proof.
  pose proof (projectDirFor_not_empty E repoName) as Hdir.
  unfold createProjectDir, projectDirFor in *. unfold_monad.
  destruct (os_MkdirAll E _) as [err|]; cbn; split_and!;
    try split; try done.
Qed.

Lemma createProjectDir_empty_iff_failed_witness :
  fst (createProjectDir (Faults.world Worlds.mavenProject Faults.diskFull)
         "app" (initial ∅)) = "" /\
  fst (createProjectDir (Worlds.world Worlds.mavenProject) ""
         (initial ∅)) = "-1700000000".
Proof.
  split.
  - apply (createProjectDir_empty_iff_failed
             (Faults.world Worlds.mavenProject Faults.diskFull)
             "app" (initial ∅)).
    discriminate.
  - apply (createProjectDir_empty_iff_failed
             (Worlds.world Worlds.mavenProject) "" (initial ∅)).
    reflexivity.
Defined.

(** X9. For one repository name, directories named at different Unix
    times differ: equal directory names mean equal clock readings. *)
Theorem projectDir_time_inj (E E' : Env) (repoName : string) :
  projectDirFor E repoName = projectDirFor E' repoName ->
  time_Now_Unix E = time_Now_Unix E'.
Proof.
  unfold projectDirFor. intros Heq.
  apply append_inj_l in Heq. apply (append_inj_l "-") in Heq.
  by apply fmt_d_inj.
Qed.

Lemma projectDir_time_inj_witness :
  time_Now_Unix (Worlds.world Worlds.mavenProject)
  = time_Now_Unix (Faults.world Worlds.gradleExit3 Faults.diskFull).
Proof.
  exact (projectDir_time_inj
           (Worlds.world Worlds.mavenProject)
           (Faults.world Worlds.gradleExit3 Faults.diskFull)
           "app" eq_refl).
Defined.

(** ** More on detection *)

(** X10. Detection depends only on whether the two [Stat] calls return an
    error, not on what the error is: a [pom.xml] whose [Stat] fails for
    any reason counts as absent, and so for [build.gradle].  Detection
    probes [build.gradle] only after the probe of [pom.xml] failed, and
    touches neither the files nor the response. *)
Theorem detectBuildTool_result
    (E : Env) (projectPath : string) (st : State) :
  fst (detectBuildTool E projectPath st)
  = (if isNil (os_Stat E (filepath_Join E projectPath "pom.xml"))
     then "maven"
     else if isNil (os_Stat E (filepath_Join E projectPath "build.gradle"))
     then "gradle"
     else "unknown") /\
  calls (snd (detectBuildTool E projectPath st))
  = calls st
    ++ EvStat (filepath_Join E projectPath "pom.xml")
       :: (if isNil (os_Stat E (filepath_Join E projectPath "pom.xml"))
           then []
           else [EvStat (filepath_Join E projectPath "build.gradle")]) /\
  files (snd (detectBuildTool E projectPath st)) = files st /\
  resp (snd (detectBuildTool E projectPath st)) = resp st.
Proof.
  unfold detectBuildTool. unfold_monad.
  destruct (os_Stat E (filepath_Join E projectPath "pom.xml")) as [err|];
    [|by rewrite <- ?app_assoc].
  destruct (os_IsNotExist E err);
    (destruct (os_Stat E (filepath_Join E projectPath "build.gradle"))
      as [err'|]; [destruct (os_IsNotExist E err')|]);
    cbn; by rewrite <- ?app_assoc.
Qed.

(** X11. A project that holds [pom.xml] is not detected as Maven when its
    directory cannot be read: every [Stat] failure, here "permission
    denied", leads to the next probe and in the end to ["unknown"]. *)
Theorem detect_unreadable_is_unknown
    (E : Env) (projectPath : string) (err err' : error) (st : State) :
  os_Stat E (filepath_Join E projectPath "pom.xml") = Some err ->
  os_Stat E (filepath_Join E projectPath "build.gradle") = Some err' ->
  os_IsNotExist E err = false ->
  os_IsNotExist E err' = false ->
  detectBuildTool E projectPath st
  = ("unknown",
     {| files := files st;
        calls := calls st
                 ++ [EvStat (filepath_Join E projectPath "pom.xml");
                     EvStat (filepath_Join E projectPath "build.gradle")];
        stdout := stdout st
                  ++ ["Error checking pom.xml: " +:+ err +:+ nl;
                      "Error checking build.gradle: " +:+ err' +:+ nl];
        resp := resp st |}).
Proof.
  intros Hpom Hgradle Herr Herr'. unfold detectBuildTool. unfold_monad.
  rewrite Hpom, Herr. cbn. rewrite Hgradle, Herr'. cbn.
  by rewrite <- !app_assoc.
Qed.

Lemma detect_unreadable_is_unknown_witness :
  fst (detectBuildTool (Faults.world Worlds.mavenProject Faults.unreadable)
         "app-1700000000" (initial ∅)) = "unknown".
Proof.
  rewrite (detect_unreadable_is_unknown
             (Faults.world Worlds.mavenProject Faults.unreadable)
             "app-1700000000"
             "stat app-1700000000/pom.xml: permission denied"
             "stat app-1700000000/build.gradle: permission denied"
             (initial ∅) eq_refl eq_refl eq_refl eq_refl).
  reflexivity.
Defined.

(** ** More on the handler *)

(** What a build adds to a state: calls for its tool, nothing printed,
    nothing written to the client. *)
Lemma executeBuild_keeps
    (E : Env) (projectPath buildTool : string) (st : State) :
  resp (snd (executeBuild E projectPath buildTool st)) = resp st /\
  stdout (snd (executeBuild E projectPath buildTool st)) = stdout st /\
  exists added : list Event,
    calls (snd (executeBuild E projectPath buildTool st))
    = calls st ++ added /\
    Forall (buildEventOf buildTool) added.
Proof.
  unfold executeBuild, generateDockerfile, waitVerdict. unfold_monad.
  case_oracles; (split; [reflexivity|]); (split; [reflexivity|]);
    rewrite <- ?app_assoc; eexists; (split; [reflexivity|]);
    repeat constructor.
Qed.

Lemma getRepoNameFromURL_is_Some (repoURL : string) :
  getRepoNameFromURL repoURL <> None.
Proof.
  intros Hnone.
  destruct (index_last_is_Some
              (strings_Split
                 (strings_TrimPrefix repoURL "https://github.com/") "/"))
    as [name Hname].
  - by apply strings_Split_nonempty.
  - unfold getRepoNameFromURL in Hnone. congruence.
Qed.

Lemma projectDirFor_not_empty_raw (repoName rest : string) :
  repoName +:+ "-" +:+ rest <> "".
Proof. by destruct repoName. Qed.

Section HandlerRuns.

(** The handler is read with [executeBuild] kept folded. *)
#[local] Arguments executeBuild : simpl never.

(** The handler as a term on states. *)
Ltac open_handler :=
  unfold deployHandler, createProjectDir, fetchCodeFromGitHub,
    detectBuildTool;
  unfold_monad.

(** Case analysis on everything the handler asks, in its order. *)
Ltac case_handler_step :=
  match goal with
  | |- context [json_Decode ?E ?b] => destruct (json_Decode E b) eqn:?
  | |- context [getRepoNameFromURL ?u] =>
      destruct (getRepoNameFromURL u) eqn:?
  | |- context [String.eqb ?a ?b] => destruct (String.eqb_spec a b)
  | |- context [os_MkdirAll ?E ?p] => destruct (os_MkdirAll E p) eqn:?
  | |- context [exec_Run ?E ?c] => destruct (exec_Run E c) eqn:?
  | |- context [os_Stat ?E ?p] => destruct (os_Stat E p) eqn:?
  | |- context [os_IsNotExist ?E ?e] => destruct (os_IsNotExist E e) eqn:?
  | |- context [executeBuild ?E ?p ?t ?s] =>
      let K := fresh "Hkeeps" in
      pose proof (executeBuild_keeps E p t s) as K;
      destruct (executeBuild E p t s) as [[?|] ?] eqn:?;
      cbn in K; destruct K as (? & ? & ? & ? & ?)
  end.

Ltac case_handler :=
  cbn; repeat (case_handler_step; cbn);
  try match goal with
      | H : getRepoNameFromURL _ = None |- _ =>
          by apply getRepoNameFromURL_is_Some in H
      end;
  try match goal with
      | H : _ +:+ "-" +:+ _ = "" |- _ =>
          by apply (projectDirFor_not_empty_raw) in H
      end;
  try match goal with
      | H : @eq string (String _ _) (String _ _) |- _ => discriminate H
      end.

(** X12. The handler never panics: for every request and every world it
    returns. *)
Theorem deployHandler_returns (E : Env) (r : Request) (st : State) :
  fst (deployHandler E r st) = Returned.
Proof. open_handler. case_handler; reflexivity. Qed.

Lemma buildEventOf_known (buildTool : string) (e : Event) :
  buildTool = "maven" \/ buildTool = "gradle" ->
  buildEventOf buildTool e -> forKnownTool e.
Proof. intros [-> | ->]; destruct e; cbn; intuition. Qed.

(** X13. Whatever happens, the handler leaves the response unwritten, so
    that the client gets 200 with an empty body, or writes one of two
    answers with status 400: the complaint about the request body, or the
    complaint about the build tool, whose text ends in the unfilled verb
    of line 100. *)
Theorem deployHandler_response
    (E : Env) (r : Request) (fs : gmap string string) :
  resp (snd (deployHandler E r (initial fs)))
  = {| status := None; body := "" |} \/
  (exists jsonErr : error,
      json_Decode E (Body r) = Err jsonErr /\
      resp (snd (deployHandler E r (initial fs)))
      = {| status := Some StatusBadRequest;
           body := "Error parsing request body: " +:+ jsonErr +:+ nl |}) \/
  resp (snd (deployHandler E r (initial fs)))
  = {| status := Some StatusBadRequest;
       body := "Unsupported build tool! %!v(MISSING)" +:+ nl |}.
Proof.
  open_handler. case_handler.
  all: first [ by left
             | left; congruence
             | by right; left; eexists
             | by right; right ].
Qed.

(** X14. A body that does not decode costs nothing: the handler answers
    400 with the decoder's message, calls nothing, prints nothing and
    leaves the files alone. *)
Theorem deployHandler_bad_body
    (E : Env) (r : Request) (jsonErr : error) (fs : gmap string string) :
  json_Decode E (Body r) = Err jsonErr ->
  deployHandler E r (initial fs)
  = (Returned,
     {| files := fs; calls := []; stdout := [];
        resp := {| status := Some StatusBadRequest;
                   body := "Error parsing request body: "
                           +:+ jsonErr +:+ nl |} |}).
Proof. intros Hbody. open_handler. rewrite Hbody. reflexivity. Qed.

Lemma deployHandler_bad_body_witness :
  clientStatus (resp (snd (deployHandler (Worlds.world Worlds.mavenProject)
                             {| Body := "repoURL=acme/app" |} (initial ∅))))
  = StatusBadRequest.
Proof.
  rewrite (deployHandler_bad_body (Worlds.world Worlds.mavenProject)
             {| Body := "repoURL=acme/app" |}
             "unexpected end of JSON input" ∅ eq_refl).
  reflexivity.
Defined.

(** X15. Whatever the request, the handler only ever writes the manifest
    of Maven or of Gradle and only ever creates a container from the image
    [java-build-env] with the command line of Maven or of Gradle: the
    fall-through branches of [buildToolArgs] and [generateDockerfile] are
    never reached from the handler, and nothing of the request enters the
    command line. *)
Theorem deployHandler_known_tools
    (E : Env) (r : Request) (fs : gmap string string) :
  Forall forKnownTool (calls (snd (deployHandler E r (initial fs)))).
Proof.
  open_handler. case_handler.
  all: try (by repeat constructor).
  all: match goal with
       | H : calls _ = _ |- _ => rewrite H
       end.
  all: repeat (constructor; [exact I|]).
  all: (eapply Forall_impl; [eassumption|]).
  all: intros ev; apply buildEventOf_known; auto.
Qed.

(** X16. The handler runs nothing but [git clone] with the URL of the
    request as given and the project directory, and only after that
    directory was made; and it takes a build step only after the clone
    succeeded and one of the two marker files was found. *)
Theorem deployHandler_sequence
    (E : Env) (r : Request) (fs : gmap string string) :
  (forall argv : list string,
      In (EvExecRun argv) (calls (snd (deployHandler E r (initial fs)))) ->
      exists (req : RepoRequest) (repoName : string),
        json_Decode E (Body r) = Ok req /\
        getRepoNameFromURL (RepoURL req) = Some repoName /\
        repoName <> "" /\
        os_MkdirAll E (projectDirFor E repoName) = None /\
        argv = cloneCmd (RepoURL req) (projectDirFor E repoName)) /\
  (existsb isBuildStep (calls (snd (deployHandler E r (initial fs)))) = true ->
   exists (req : RepoRequest) (repoName : string),
     json_Decode E (Body r) = Ok req /\
     getRepoNameFromURL (RepoURL req) = Some repoName /\
     exec_Run E (cloneCmd (RepoURL req) (projectDirFor E repoName)) = None /\
     (os_Stat E (filepath_Join E (projectDirFor E repoName) "pom.xml")
      = None \/
      os_Stat E (filepath_Join E (projectDirFor E repoName) "build.gradle")
      = None)).
Proof.
  unfold projectDirFor, cloneCmd. open_handler.
  case_handler; (split; [intros argv Hin|intros Hstep]).
  all: try discriminate Hstep.
  all: try match goal with
           | H : calls _ = _ |- _ => rewrite H in *
           end.
  all: try (cbn in Hin;
            repeat match goal with
                   | H : _ \/ _ |- _ => destruct H as [H|H]
                   end;
            try discriminate; try contradiction).
  all: try match goal with
           | Hall : Forall (buildEventOf _) ?l, H : In _ ?l |- _ =>
               rewrite Forall_forall in Hall;
               apply list_elem_of_In, Hall in H; by destruct H
           end.
  all: try match goal with
           | H : EvExecRun _ = EvExecRun _ |- _ => injection H as <-
           end.
  all: do 2 eexists; split_and!; eauto.
Qed.

Lemma deployHandler_sequence_witness :
  exists (req : RepoRequest) (repoName : string),
    json_Decode (Worlds.world Worlds.mavenProject)
      (Body (Worlds.requestOf Worlds.mavenProject)) = Ok req /\
    exec_Run (Worlds.world Worlds.mavenProject)
      (cloneCmd (RepoURL req)
         (projectDirFor (Worlds.world Worlds.mavenProject) repoName))
    = None.
Proof.
  destruct (proj2 (deployHandler_sequence
                     (Worlds.world Worlds.mavenProject)
                     (Worlds.requestOf Worlds.mavenProject) ∅))
    as (req & repoName & Hreq & _ & Hclone & _).
  - vm_compute. reflexivity.
  - exists req, repoName. split; [exact Hreq|exact Hclone].
Defined.

(** X17. The error a failed build returns is never printed: whenever the
    last line the handler prints starts with ["Build failed: "], the line
    is ["Build failed: <nil>"]. *)
Theorem build_error_not_printed
    (E : Env) (r : Request) (fs : gmap string string) (line : string) :
  last (stdout (snd (deployHandler E r (initial fs)))) = Some line ->
  String.prefix "Build failed: " line = true ->
  line = "Build failed: <nil>" +:+ nl.
Proof.
  open_handler. case_handler.
  all: try match goal with
           | H : stdout _ = _ |- _ => rewrite H
           end.
  all: cbn; intros [= <-] Hprefix.
  all: first [ reflexivity | by vm_compute in Hprefix ].
Qed.

Lemma build_error_not_printed_witness :
  last (stdout (snd (Worlds.deploy Worlds.gradleExit3)))
  = Some ("Build failed: <nil>" +:+ nl) /\
  String.prefix "Build failed: " ("Build failed: <nil>" +:+ nl) = true /\
  "Build failed: <nil>" +:+ nl = "Build failed: <nil>" +:+ nl.
Proof.
  assert (Hlast : last (stdout (snd (Worlds.deploy Worlds.gradleExit3)))
                  = Some ("Build failed: <nil>" +:+ nl))
    by (vm_compute; reflexivity).
  split; [exact Hlast|]. split; [reflexivity|].
  exact (build_error_not_printed
           (Worlds.world Worlds.gradleExit3)
           (Worlds.requestOf Worlds.gradleExit3) ∅
           ("Build failed: <nil>" +:+ nl) Hlast eq_refl).
Defined.

End HandlerRuns.
